(** * Asteron splash generator: [scripts/generate_splash.py]

    A shallow embedding of the script that composites a corner-rounded logo
    onto a fixed-size canvas, and the properties its specification states.

    The script is straight-line code over the Pillow imaging library.  Images
    are modelled by their size and their pixel function; the Pillow calls the
    script makes ([Image.new], [ImageDraw.ellipse], [crop], [paste],
    [putalpha], [resize], [open], [save]) are modelled by what they do to
    that data.  Two library routines whose exact output is numeric detail of
    Pillow are taken as parameters of the development: the rasteriser of
    [ImageDraw.ellipse] and the Lanczos resampling kernel. *)

From Stdlib Require Import Ascii String.
From stdpp Require Import base strings gmap.

Local Open Scope Z_scope.

(** ** Python outcomes *)

Inductive exn : Type :=
  | ValueError
  | FileNotFoundError
  | UnidentifiedImageError
  | OSError.

Inductive result (A : Type) : Type :=
  | Returned (a : A)
  | Raised (e : exn).
Arguments Returned {A} a.
Arguments Raised {A} e.

Global Instance result_ret : MRet result := λ A a, Returned a.
Global Instance result_bind : MBind result := λ A B f m,
  match m with Returned a => f a | Raised e => Raised e end.
Global Instance result_fmap : FMap result := λ A B f m,
  match m with Returned a => Returned (f a) | Raised e => Raised e end.

Definition is_Raised {A} (m : result A) : bool :=
  match m with Raised _ => true | Returned _ => false end.

(** ** Configuration (module constants of the script) *)

Definition LOGO_PATH : string := "assets/AI_Companion_icon.png".
Definition OUTPUT_DIR : string := "assets".
Definition SPLASH_WIDTH : Z := 1284.
Definition SPLASH_HEIGHT : Z := 2778.
Definition LOGO_SIZE : Z := 480.
Definition LOGO_RADIUS : Z := 120.
Definition DARK_BG : string := "#000000".
Definition LIGHT_BG : string := "#F2F2F7".

(** ** Images *)

(** A box is [(left, upper, right, lower)]; a pixel [(x, y)] is in it when
    [left <= x < right] and [upper <= y < lower]. *)
Definition in_box (box : Z * Z * Z * Z) (x y : Z) : bool :=
  let '(l, t, r, b) := box in
  (l <=? x) && (x <? r) && (t <=? y) && (y <? b).

Definition inside (size : Z * Z) (x y : Z) : bool :=
  in_box (0, 0, size.1, size.2) x y.

(** Mode ['L']: one 8-bit band. *)
Record band : Type := Band { b_size : Z * Z; b_px : Z → Z → Z }.

(** Modes ['RGB'] and ['RGBA'].  Pillow stores both with four bytes per
    pixel; for ['RGB'] the fourth byte is padding. *)
Inductive mode : Type := RGB | RGBA.

Record pixel : Type := Pixel { px_r : Z; px_g : Z; px_b : Z; px_a : Z }.

Record image : Type :=
  Image { im_mode : mode; im_size : Z * Z; im_px : Z → Z → pixel }.

Definition rgb (p : pixel) : Z * Z * Z := (px_r p, px_g p, px_b p).

(** [Image.new('L', size, color)]: Pillow rejects a negative width or height
    with [ValueError]. *)
Definition Image_new_L (size : Z * Z) (color : Z) : result band :=
  if (size.1 <? 0) || (size.2 <? 0) then Raised ValueError
  else Returned (Band size (λ _ _, color)).

(** Twice [Image.MAX_IMAGE_PIXELS]: Pillow refuses to crop a box of more
    pixels, with [DecompressionBombError]. *)
Definition MAX_CROP_PIXELS : Z := 2 * 89478485.

(** [im.crop(box)]: the region of [box]; a pixel of the region that lies
    outside the source image reads as [0].  The operation is modelled for
    boxes of at most [MAX_CROP_PIXELS] pixels. *)
Definition crop (im : band) (box : Z * Z * Z * Z) : band :=
  let '(l, t, r, b) := box in
  Band (r - l, b - t)
       (λ x y, if inside (b_size im) (x + l) (y + t)
               then b_px im (x + l) (y + t) else 0).

(** [dst.paste(src, (dx, dy))] without a mask: the pixels of [src] overwrite
    those of [dst] in the box of [src]'s size at [(dx, dy)]. *)
Definition paste (dst src : band) (pos : Z * Z) : band :=
  let '(dx, dy) := pos in
  Band (b_size dst)
       (λ x y, if in_box (dx, dy, dx + (b_size src).1, dy + (b_size src).2) x y
               then b_px src (x - dx) (y - dy) else b_px dst x y).

(** [image.putalpha(alpha)]: the alpha band of [image] is replaced by
    [alpha]; the colour bands are kept and the mode becomes ['RGBA']. *)
Definition putalpha (im : image) (alpha : band) : image :=
  Image RGBA (im_size im)
        (λ x y, let p := im_px im x y in
                Pixel (px_r p) (px_g p) (px_b p) (b_px alpha x y)).

(** [ImageColor.getrgb] on the hexadecimal form [#rrggbb], the one the
    script uses; the string is lower-cased first, so both cases of a digit
    are accepted.  The other forms Pillow accepts (colour names, [#rgb],
    [#rrggbbaa], [rgb(...)] and the like) are outside the model: nothing
    below is stated about a colour unless [getrgb] returns for it. *)
Definition hex_digit (c : ascii) : option Z :=
  let n := Z.of_nat (nat_of_ascii c) in
  if (48 <=? n) && (n <=? 57) then Some (n - 48)
  else if (97 <=? n) && (n <=? 102) then Some (n - 87)
  else if (65 <=? n) && (n <=? 70) then Some (n - 55)
  else None.

Definition hex_byte (hi lo : ascii) : option Z :=
  h ← hex_digit hi; l ← hex_digit lo; Some (16 * h + l).

Definition getrgb (color : string) : result (Z * Z * Z) :=
  match color with
  | String "#"%char (String r1 (String r0 (String g1 (String g0
      (String b1 (String b0 EmptyString)))))) =>
      match hex_byte r1 r0, hex_byte g1 g0, hex_byte b1 b0 with
      | Some r, Some g, Some b => Returned (r, g, b)
      | _, _, _ => Raised ValueError
      end
  | _ => Raised ValueError
  end.

(** [Image.new(mode, size, color)] for a colour image: the size is checked
    first, then the colour string is parsed; a colour without alpha gets
    alpha 255 (the padding byte of ['RGB'] is 255 as well). *)
Definition Image_new (m : mode) (size : Z * Z) (color : string) : result image :=
  if (size.1 <? 0) || (size.2 <? 0) then Raised ValueError
  else '(r, g, b) ← getrgb color;
       Returned (Image m size (λ _ _, Pixel r g b 255)).

(** [im.convert('RGBA')]: an image without alpha becomes fully opaque. *)
Definition convert_RGBA (im : image) : image :=
  Image RGBA (im_size im)
        (λ x y, let p := im_px im x y in
                match im_mode im with
                | RGBA => p
                | RGB => Pixel (px_r p) (px_g p) (px_b p) 255
                end).

(** Pillow's 8-bit blend: [DIV255] is the rounded division by 255 and
    [BLEND mask in1 in2] weighs [in2] by [mask] and [in1] by [255 - mask];
    the result is stored in a byte. *)
Definition DIV255 (a : Z) : Z :=
  let tmp := a + 128 in Z.shiftr (Z.shiftr tmp 8 + tmp) 8.

Definition BLEND (mask in1 in2 : Z) : Z :=
  DIV255 (in1 * (255 - mask) + in2 * mask) `mod` 256.

Definition blend_pixel (mask : Z) (out inp : pixel) : pixel :=
  Pixel (BLEND mask (px_r out) (px_r inp))
        (BLEND mask (px_g out) (px_g inp))
        (BLEND mask (px_b out) (px_b inp))
        (BLEND mask (px_a out) (px_a inp)).

(** [dst.paste(src, (dx, dy), mask)] with an ['RGBA'] mask of [src]'s size:
    in the box of [src] at [(dx, dy)] each of the four bytes of a pixel of
    [dst] is blended with that of [src], weighted by the mask's alpha. *)
Definition paste_masked (dst src : image) (pos : Z * Z) (mask : image) : image :=
  let '(dx, dy) := pos in
  Image (im_mode dst) (im_size dst)
        (λ x y, if in_box (dx, dy, dx + (im_size src).1, dy + (im_size src).2) x y
                then blend_pixel (px_a (im_px mask (x - dx) (y - dy)))
                                 (im_px dst x y) (im_px src (x - dx) (y - dy))
                else im_px dst x y).

(** ** The world of a run: files and console *)

(** A file is an image file whose data decodes to [im], an image file
    whose header is readable but whose data is cut short, or a file that is
    not an image.  PNG is lossless, so a saved image is read back as it was
    written. *)
Inductive file : Type :=
  | ImageFile (im : image)
  | TruncatedFile
  | OtherFile.

(** Paths are relative to the project directory, which [main] enters first
    ([os.chdir(project_dir)]). *)
Record world : Type := World { fs : gmap string file; stdout : list string }.

Definition Py (A : Type) : Type := world → result A * world.

Global Instance Py_ret : MRet Py := λ A a w, (Returned a, w).
Global Instance Py_bind : MBind Py := λ A B f m w,
  match m w with
  | (Returned a, w') => f a w'
  | (Raised e, w') => (Raised e, w')
  end.

Definition lift {A} (m : result A) : Py A := λ w, (m, w).

Definition print (line : string) : Py unit :=
  λ w, (Returned tt, World (fs w) (stdout w ++ [line])).

Definition os_path_exists (path : string) : Py bool :=
  λ w, (Returned (bool_decide (is_Some (fs w !! path))), w).

Definition os_path_join (dir name : string) : string := dir +:+ "/" +:+ name.

(** [os.makedirs(dir, exist_ok=True)]: directories are implicit in the
    path-keyed store, so no file changes. *)
Definition os_makedirs (dir : string) : Py unit := mret tt.

(** [Image.open(path)] and the read of the pixel data that the chained
    [convert] of line 56 triggers: a missing file and a file that is not an
    image fail in [open], a truncated image fails in the read with
    [OSError]. *)
Definition Image_open (path : string) : Py image :=
  λ w, match fs w !! path with
       | None => (Raised FileNotFoundError, w)
       | Some OtherFile => (Raised UnidentifiedImageError, w)
       | Some TruncatedFile => (Raised OSError, w)
       | Some (ImageFile im) => (Returned im, w)
       end.

(** What a PNG file keeps of an image: an ['RGB'] file has no fourth byte. *)
Definition png_data (im : image) : image :=
  match im_mode im with
  | RGBA => im
  | RGB => Image RGB (im_size im)
                 (λ x y, let p := im_px im x y in
                         Pixel (px_r p) (px_g p) (px_b p) 255)
  end.

(** [im.save(path, 'PNG', ...)]: the file at [path] is created or replaced. *)
Definition save (im : image) (path : string) : Py unit :=
  λ w, (Returned tt, World (<[path := ImageFile (png_data im)]> (fs w)) (stdout w)).

(** Line 63 and line 64 of [create_splash_screen]; [`div`] is Python's
    floor division. *)
Definition logo_x : Z := (SPLASH_WIDTH - LOGO_SIZE) `div` 2.
Definition logo_y : Z := (SPLASH_HEIGHT - LOGO_SIZE) `div` 2.

(** The box the logo is pasted into. *)
Definition logo_box : Z * Z * Z * Z :=
  (logo_x, logo_y, logo_x + LOGO_SIZE, logo_y + LOGO_SIZE).

(** A reference rasteriser: the pixel at offset [(x, y)] from the upper left
    corner of a bounding box spanning [a] by [b] pixel steps is covered when
    it lies within the ellipse through the box's end points, both included. *)
Definition disc_covers (a b x y : Z) : bool :=
  (2 * x - a) ^ 2 * b ^ 2 + (2 * y - b) ^ 2 * a ^ 2 <=? a ^ 2 * b ^ 2.

(** A second reference rasteriser: the ellipse that fills the [a + 1] by
    [b + 1] pixels of the box, end points included, sampled at the centres
    of the pixels. *)
Definition centre_disc_covers (a b x y : Z) : bool :=
  (2 * x - a) ^ 2 * (b + 1) ^ 2 + (2 * y - b) ^ 2 * (a + 1) ^ 2
  <=? (a + 1) ^ 2 * (b + 1) ^ 2.

(** A reference resampler: nearest neighbour. *)
Definition nearest (src_size : Z * Z) (src : Z → Z → pixel) (dst_size : Z * Z)
    (x y : Z) : pixel :=
  src ((x * src_size.1) `div` dst_size.1) ((y * src_size.2) `div` dst_size.2).

(** ** Sample inputs *)

(** A resized logo that is transparent everywhere. *)
Definition transparent_logo : image :=
  Image RGBA (LOGO_SIZE, LOGO_SIZE) (λ _ _, Pixel 0 0 0 0).

(** An image smaller than twice the logo radius. *)
Definition small_icon : image :=
  Image RGBA (100, 100) (λ _ _, Pixel 255 255 255 255).

(** A 3 by 2 logo file in an otherwise empty project. *)
Definition sample_logo : image :=
  Image RGB (3, 2) (λ x y, Pixel (10 * x) (20 * y) 30 255).

Definition sample_world : world :=
  World {[ LOGO_PATH := ImageFile sample_logo ]} [].

(** The same logo among other files, after earlier console output. *)
Definition busy_world : world :=
  World (<["README.md" := OtherFile]> {[ LOGO_PATH := ImageFile sample_logo ]})
        ["$ python3 scripts/generate_splash.py"].

Definition empty_world : world := World ∅ [].

(** A project whose logo file is not an image. *)
Definition broken_world : world := World {[ LOGO_PATH := OtherFile ]} [].

(** A project whose logo file is an image cut short. *)
Definition truncated_world : world :=
  World {[ LOGO_PATH := TruncatedFile ]} [].

Section Pillow.

(** [ellipse_covers a b x y]: whether [ImageDraw.ellipse] with a bounding box
    [(x0, y0, x0 + a, y0 + b)] paints the pixel [(x0 + x, y0 + y)].  The
    drawing is not anti-aliased: a pixel is painted with the fill or left. *)
Variable ellipse_covers : Z → Z → Z → Z → bool.

(** [lanczos src_size src dst_size x y]: the pixel [(x, y)] of an image of
    pixels [src] and size [src_size] resampled to [dst_size] with the
    Lanczos filter. *)
Variable lanczos : Z * Z → (Z → Z → pixel) → Z * Z → Z → Z → pixel.

(** [ImageDraw.Draw(im).ellipse(xy, fill)] *)
Definition ellipse (im : band) (xy : Z * Z * Z * Z) (fill : Z) : band :=
  let '(x0, y0, x1, y1) := xy in
  Band (b_size im)
       (λ x y, if inside (b_size im) x y
                  && ellipse_covers (x1 - x0) (y1 - y0) (x - x0) (y - y0)
               then fill else b_px im x y).

(** Lines 30-44 of [round_corners]: the opacity band [alpha]. *)
Definition round_corners_alpha (size : Z * Z) (radius : Z) : result band :=
  circle ← Image_new_L (radius * 2, radius * 2) 0;
  let circle := ellipse circle (0, 0, radius * 2, radius * 2) 255 in
  alpha ← Image_new_L size 255;
  let '(w, h) := size in
  let alpha := paste alpha (crop circle (0, 0, radius, radius)) (0, 0) in
  let alpha :=
    paste alpha (crop circle (radius, 0, radius * 2, radius)) (w - radius, 0) in
  let alpha :=
    paste alpha (crop circle (0, radius, radius, radius * 2)) (0, h - radius) in
  let alpha :=
    paste alpha (crop circle (radius, radius, radius * 2, radius * 2))
          (w - radius, h - radius) in
  Returned alpha.

Definition round_corners (img : image) (radius : Z) : result image :=
  alpha ← round_corners_alpha (im_size img) radius;
  Returned (putalpha img alpha).

(** [im.resize(size, Image.Resampling.LANCZOS)] *)
Definition resize (im : image) (size : Z * Z) : image :=
  Image (im_mode im) size (lanczos (im_size im) (im_px im) size).

Definition create_splash_screen (logo_path output_path bg_color : string)
  : Py unit :=
  splash ← lift (Image_new RGBA (SPLASH_WIDTH, SPLASH_HEIGHT) bg_color);
  logo ← Image_open logo_path;
  let logo := convert_RGBA logo in
  let logo := resize logo (LOGO_SIZE, LOGO_SIZE) in
  logo ← lift (round_corners logo LOGO_RADIUS);
  let splash := paste_masked splash logo (logo_x, logo_y) logo in
  final ← lift (Image_new RGB (SPLASH_WIDTH, SPLASH_HEIGHT) bg_color);
  let final := paste_masked final splash (0, 0) splash in
  save final output_path;;
  print ("✓ Created: " +:+ output_path).

(** Lines 80-82 of [main] enter the project directory; from there on paths
    are relative to it, as the keys of [fs] are.  The early [return] of the
    missing-logo branch is the first arm of the conditional. *)
Definition main : Py unit :=
  let logo_path := LOGO_PATH in
  found ← os_path_exists logo_path;
  if negb found then print ("Error: Logo not found at " +:+ logo_path)
  else
    os_makedirs OUTPUT_DIR;;
    print "Generating splash screens...";;
    print ("Logo: " +:+ logo_path);;
    print ("Output directory: " +:+ OUTPUT_DIR);;
    print "";;
    let dark_output := os_path_join OUTPUT_DIR "splash-dark.png" in
    create_splash_screen logo_path dark_output DARK_BG;;
    let light_output := os_path_join OUTPUT_DIR "splash-light.png" in
    create_splash_screen logo_path light_output LIGHT_BG;;
    print "";;
    print "✅ All splash screens generated successfully!";;
    print "";;
    print "Next steps:";;
    print "1. Run: npx expo prebuild --clean";;
    print "2. Run: npx expo run:ios --device".

(** *** Geometry of the four corners *)

Inductive corner : Type := TopLeft | TopRight | BottomLeft | BottomRight.

(** The square of side [r] in a corner of a [w] by [h] image. *)
Definition corner_square (w h r : Z) (c : corner) : Z * Z * Z * Z :=
  match c with
  | TopLeft => (0, 0, r, r)
  | TopRight => (w - r, 0, w, r)
  | BottomLeft => (0, h - r, r, h)
  | BottomRight => (w - r, h - r, w, h)
  end.

(** Where the paste for a corner puts the upper left end of the stamp: the
    stamp pixel [(x - ox, y - oy)] lands on the pixel [(x, y)] of the
    corner's square. *)
Definition disc_origin (w h r : Z) (c : corner) : Z * Z :=
  match c with
  | TopLeft => (0, 0)
  | TopRight => (w - r * 2, 0)
  | BottomLeft => (0, h - r * 2)
  | BottomRight => (w - r * 2, h - r * 2)
  end.

(** Whether the stamp pixel that the paste for corner [c] puts on the pixel
    [(x, y)] was painted by [ImageDraw.ellipse]. *)
Definition quadrant_painted (w h r : Z) (c : corner) (x y : Z) : bool :=
  let '(ox, oy) := disc_origin w h r c in
  ellipse_covers (r * 2) (r * 2) (x - ox) (y - oy).

Definition opacity (covered : bool) : Z := if covered then 255 else 0.

(** The opacity the four pastes leave at a pixel: that of the last pasted
    quadrant whose square holds the pixel, 255 where no square does. *)
Definition pasted_opacity (w h r x y : Z) : Z :=
  if in_box (corner_square w h r BottomRight) x y
  then opacity (quadrant_painted w h r BottomRight x y)
  else if in_box (corner_square w h r BottomLeft) x y
  then opacity (quadrant_painted w h r BottomLeft x y)
  else if in_box (corner_square w h r TopRight) x y
  then opacity (quadrant_painted w h r TopRight x y)
  else if in_box (corner_square w h r TopLeft) x y
  then opacity (quadrant_painted w h r TopLeft x y)
  else 255.

(** *** The inscribed quarter-circles, as geometry

    The pixel [(x, y)] is the unit square from [(x, y)] to [(x + 1, y + 1)].
    The quarter-circle inscribed in a corner has radius [r] and its centre at
    the inner vertex of the corner's square, so that it touches the two
    edges of the image that meet in the corner. *)

Definition arc_centre (w h r : Z) (c : corner) : Z * Z :=
  match c with
  | TopLeft => (r, r)
  | TopRight => (w - r, r)
  | BottomLeft => (r, h - r)
  | BottomRight => (w - r, h - r)
  end.

(** Least and greatest distance, along one axis, from the coordinate [p] to
    the points of the interval from [x] to [x + 1]. *)
Definition near_side (p x : Z) : Z :=
  if p <? x then x - p else if x + 1 <? p then p - (x + 1) else 0.
Definition far_side (p x : Z) : Z := Z.max (Z.abs (x - p)) (Z.abs (x + 1 - p)).

(** Every point of the pixel is within distance [r] of the centre. *)
Definition wholly_inside (w h r : Z) (c : corner) (x y : Z) : bool :=
  let '(cx, cy) := arc_centre w h r c in
  far_side cx x ^ 2 + far_side cy y ^ 2 <=? r ^ 2.

(** Every point of the pixel is farther than [r] from the centre. *)
Definition wholly_outside (w h r : Z) (c : corner) (x y : Z) : bool :=
  let '(cx, cy) := arc_centre w h r c in
  r ^ 2 <? near_side cx x ^ 2 + near_side cy y ^ 2.

(** The contract of the rounding on a band: in a corner square a pixel
    inside the inscribed quarter-circle is opaque and a pixel outside it is
    transparent (a pixel the arc runs through may be either); outside the
    four squares every pixel is opaque. *)
Definition arc_contract (alpha : band) (w h r : Z) : Prop :=
  ∀ x y, inside (w, h) x y = true →
    (∀ c, in_box (corner_square w h r c) x y = true →
          (wholly_inside w h r c x y = true → b_px alpha x y = 255) ∧
          (wholly_outside w h r c x y = true → b_px alpha x y = 0)) ∧
    ((∀ c, in_box (corner_square w h r c) x y = false) →
     b_px alpha x y = 255).

(** *** Bands up to their pixels, and rotations *)

Definition band_eq (a b : band) : Prop :=
  b_size a = b_size b ∧
  ∀ x y, inside (b_size a) x y = true → b_px a x y = b_px b x y.

(** Quarter turn: the pixel [(x, y)] of the result is the pixel
    [(w - 1 - y, x)] of the source. *)
Definition rotate90 (a : band) : band :=
  Band ((b_size a).2, (b_size a).1) (λ x y, b_px a ((b_size a).1 - 1 - y) x).
Definition rotate180 (a : band) : band := rotate90 (rotate90 a).
Definition rotate270 (a : band) : band := rotate90 (rotate180 a).

(** ** Properties of the opacity band *)

Lemma in_box_true l t r b x y :
  in_box (l, t, r, b) x y = true ↔ (l ≤ x < r) ∧ (t ≤ y < b).
Proof.
  unfold in_box. rewrite !andb_true_iff, !Z.leb_le, !Z.ltb_lt. lia.
Qed.

Lemma in_box_false l t r b x y :
  in_box (l, t, r, b) x y = false ↔ ¬ ((l ≤ x < r) ∧ (t ≤ y < b)).
Proof.
  rewrite <- in_box_true. destruct (in_box _ _ _); split; congruence.
Qed.

Lemma inside_true w h x y :
  inside (w, h) x y = true ↔ (0 ≤ x < w) ∧ (0 ≤ y < h).
Proof. apply in_box_true. Qed.

Lemma Image_new_L_returns w h color :
  0 ≤ w → 0 ≤ h → Image_new_L (w, h) color = Returned (Band (w, h) (λ _ _, color)).
Proof.
  intros Hw Hh. unfold Image_new_L. simpl.
  destruct (Z.ltb_spec w 0); [lia|]. destruct (Z.ltb_spec h 0); [lia|]. done.
Qed.

(** A pixel of a quadrant's square reads the stamp inside its bounds, where
    the stamp is the fill under the ellipse and 0 elsewhere. *)
Ltac read_quadrant H :=
  apply in_box_true in H;
  cbn [ellipse b_px b_size];
  match goal with
  | |- context [inside (?s, ?s) ?u ?v] =>
      replace (inside (s, s) u v) with true
        by (symmetry; apply inside_true; lia)
  end;
  cbn [andb]; unfold opacity;
  match goal with
  | |- (if ?f ?a ?b ?c ?d then _ else _) = (if ?f ?a' ?b' ?c' ?d' then _ else _) =>
      replace a with a' by lia; replace b with b' by lia;
      replace c with c' by lia; replace d with d' by lia; reflexivity
  end.

(** The opacity band in full: the four quadrants are pasted in the order top
    left, top right, bottom left, bottom right, a later paste overwriting an
    earlier one, onto a band of 255. *)
Lemma round_corners_alpha_px w h r :
  0 ≤ r → 0 ≤ w → 0 ≤ h →
  ∃ alpha, round_corners_alpha (w, h) r = Returned alpha ∧
    b_size alpha = (w, h) ∧
    ∀ x y, b_px alpha x y = pasted_opacity w h r x y.
Proof.
  intros Hr Hw Hh. unfold round_corners_alpha.
  rewrite (Image_new_L_returns (r * 2) (r * 2)) by lia.
  rewrite (Image_new_L_returns w h) by lia.
  cbn [mbind result_bind].
  eexists. split; [reflexivity|]. split; [reflexivity|].
  intros x y. unfold pasted_opacity, quadrant_painted, corner_square, disc_origin.
  cbn [paste b_px b_size crop fst snd].
  replace (w - r + (r * 2 - r)) with w by lia.
  replace (h - r + (r * 2 - r)) with h by lia.
  replace (0 + (r - 0)) with r by lia.
  destruct (in_box (w - r, h - r, w, h) x y) eqn:Ebr; [read_quadrant Ebr|].
  destruct (in_box (0, h - r, r, h) x y) eqn:Ebl; [read_quadrant Ebl|].
  destruct (in_box (w - r, 0, w, r) x y) eqn:Etr; [read_quadrant Etr|].
  destruct (in_box (0, 0, r, r) x y) eqn:Etl; [read_quadrant Etl|reflexivity].
Qed.

Lemma half_min_bound w h r : r ≤ Z.min w h `div` 2 → r * 2 ≤ w ∧ r * 2 ≤ h.
Proof.
  intros Hr.
  assert (2 * (Z.min w h `div` 2) ≤ Z.min w h) by (apply Z.mul_div_le; lia).
  lia.
Qed.

(** For a [w] by [h] image and a radius [r] with [0 < r <= min(w,h)/2], and
    quadrants that Pillow agrees to crop, the four squares do not overlap:
    in each of them the opacity band is the matching quadrant of the stamp,
    255 where the stamp pixel pasted there was painted and 0 where it was
    not, and the band is 255 at every pixel outside the four squares. *)
Theorem round_corners_alpha_quadrants w h r :
  0 < r ≤ Z.min w h `div` 2 → r * r ≤ MAX_CROP_PIXELS →
  ∃ alpha, round_corners_alpha (w, h) r = Returned alpha ∧
    b_size alpha = (w, h) ∧
    ∀ x y, inside (w, h) x y = true →
      (∀ c, in_box (corner_square w h r c) x y = true →
            b_px alpha x y = opacity (quadrant_painted w h r c x y)) ∧
      ((∀ c, in_box (corner_square w h r c) x y = false) →
       b_px alpha x y = 255).
Proof.
  intros [Hr Hhalf] _. apply half_min_bound in Hhalf as [Hw Hh].
  destruct (round_corners_alpha_px w h r) as (alpha & Hret & Hsize & Hpx);
    [lia..|].
  exists alpha. split; [done|]. split; [done|].
  intros x y _. split.
  - intros c Hc. rewrite Hpx. unfold pasted_opacity.
    destruct c; cbn [corner_square] in Hc; apply in_box_true in Hc;
      cbn [corner_square].
    + replace (in_box (w - r, h - r, w, h) x y) with false
        by (symmetry; apply in_box_false; lia).
      replace (in_box (0, h - r, r, h) x y) with false
        by (symmetry; apply in_box_false; lia).
      replace (in_box (w - r, 0, w, r) x y) with false
        by (symmetry; apply in_box_false; lia).
      replace (in_box (0, 0, r, r) x y) with true
        by (symmetry; apply in_box_true; lia).
      done.
    + replace (in_box (w - r, h - r, w, h) x y) with false
        by (symmetry; apply in_box_false; lia).
      replace (in_box (0, h - r, r, h) x y) with false
        by (symmetry; apply in_box_false; lia).
      replace (in_box (w - r, 0, w, r) x y) with true
        by (symmetry; apply in_box_true; lia).
      done.
    + replace (in_box (w - r, h - r, w, h) x y) with false
        by (symmetry; apply in_box_false; lia).
      replace (in_box (0, h - r, r, h) x y) with true
        by (symmetry; apply in_box_true; lia).
      done.
    + replace (in_box (w - r, h - r, w, h) x y) with true
        by (symmetry; apply in_box_true; lia).
      done.
  - intros Hout. rewrite Hpx. unfold pasted_opacity.
    rewrite (Hout BottomRight), (Hout BottomLeft), (Hout TopRight),
      (Hout TopLeft). done.
Qed.

(** C10.  Under the same conditions every pixel of the opacity band is 0 or
    255: the arc is not anti-aliased. *)
Theorem round_corners_alpha_two_valued w h r :
  0 < r ≤ Z.min w h `div` 2 →
  ∃ alpha, round_corners_alpha (w, h) r = Returned alpha ∧
    ∀ x y, inside (w, h) x y = true →
      b_px alpha x y = 0 ∨ b_px alpha x y = 255.
Proof.
  intros [Hr Hhalf]. apply half_min_bound in Hhalf as [Hw Hh].
  destruct (round_corners_alpha_px w h r) as (alpha & Hret & Hsize & Hpx);
    [lia..|].
  exists alpha. split; [done|]. intros x y _. rewrite Hpx.
  unfold pasted_opacity, opacity.
  repeat match goal with |- context [if ?b then _ else _] => destruct b end;
    auto.
Qed.

(** A boolean function on an interval that starts false and ends true
    flips somewhere between two neighbours. *)
Lemma first_flip (f : Z → bool) n :
  0 ≤ n → f 0 = false → f n = true →
  ∃ k, 0 ≤ k < n ∧ f k = false ∧ f (k + 1) = true.
Proof.
  intros Hn H0. revert n Hn. apply (natlike_ind (λ n, f n = true → _)).
  - congruence.
  - intros n Hn IH Hsucc. destruct (f n) eqn:Hfn.
    + destruct (IH eq_refl) as (k & Hk & Hlo & Hhi).
      exists k. repeat split; [lia..|done|done].
    + exists n. repeat split; [lia..|done|done].
Qed.

(** Pixels of the rotated bands of a square band. *)
Lemma rotate180_px a s x y :
  b_size a = (s, s) → b_px (rotate180 a) x y = b_px a (s - 1 - x) (s - 1 - y).
Proof. intros Hs. unfold rotate180, rotate90. cbn. rewrite Hs. done. Qed.

Lemma rotate90_px a s x y :
  b_size a = (s, s) → b_px (rotate90 a) x y = b_px a (s - 1 - y) x.
Proof. intros Hs. unfold rotate90. cbn. rewrite Hs. done. Qed.

Lemma rotate270_px a s x y :
  b_size a = (s, s) → b_px (rotate270 a) x y = b_px a y (s - 1 - x).
Proof.
  intros Hs. unfold rotate270, rotate180, rotate90. cbn. rewrite Hs. cbn.
  f_equal; lia.
Qed.

Lemma rotate_size a s :
  b_size a = (s, s) →
  b_size (rotate90 a) = (s, s) ∧ b_size (rotate180 a) = (s, s) ∧
  b_size (rotate270 a) = (s, s).
Proof.
  intros Hs. unfold rotate270, rotate180, rotate90. cbn. rewrite Hs. done.
Qed.

(** C7.  The opacity band of a square image is not invariant under the
    rotations.  [ImageDraw.ellipse] includes both end points of its bounding
    box, so the circle drawn for the box [(0, 0, 2r, 2r)] spans the [2r + 1]
    pixel columns and rows [0..2r] and is symmetric about the pixel
    [(r, r)], while the stamp keeps only columns and rows [0..2r-1].  For
    every rasteriser with that symmetry which paints the centre of the box
    and not its corner, the band differs from each of its rotations by 90,
    180 and 270 degrees. *)
Theorem round_corners_alpha_not_rotation_invariant s r :
  0 < r ≤ s `div` 2 →
  (∀ x y, ellipse_covers (r * 2) (r * 2) x y
          = ellipse_covers (r * 2) (r * 2) (r * 2 - x) (r * 2 - y)) →
  ellipse_covers (r * 2) (r * 2) r r = true →
  ellipse_covers (r * 2) (r * 2) 0 0 = false →
  ∃ alpha, round_corners_alpha (s, s) r = Returned alpha ∧
    ¬ band_eq (rotate90 alpha) alpha ∧
    ¬ band_eq (rotate180 alpha) alpha ∧
    ¬ band_eq (rotate270 alpha) alpha.
Proof.
  intros [Hr Hhalf] Hsym Hcentre Hcorner.
  assert (Hs : r * 2 ≤ s).
  { assert (2 * (s `div` 2) ≤ s) by (apply Z.mul_div_le; lia). lia. }
  destruct (round_corners_alpha_px s s r) as (alpha & Hret & Hsize & Hpx);
    [lia..|].
  destruct (first_flip (λ k, ellipse_covers (r * 2) (r * 2) k k) r)
    as (k & Hk & Hlo & Hhi); [lia|done|done|].
  assert (HP : b_px alpha k k = 0).
  { rewrite Hpx. unfold pasted_opacity. cbn [corner_square].
    replace (in_box (s - r, s - r, s, s) k k) with false
      by (symmetry; apply in_box_false; lia).
    replace (in_box (0, s - r, r, s) k k) with false
      by (symmetry; apply in_box_false; lia).
    replace (in_box (s - r, 0, s, r) k k) with false
      by (symmetry; apply in_box_false; lia).
    replace (in_box (0, 0, r, r) k k) with true
      by (symmetry; apply in_box_true; lia).
    unfold quadrant_painted, disc_origin. rewrite Z.sub_0_r, Hlo. done. }
  assert (HQ : b_px alpha (s - 1 - k) (s - 1 - k) = 255).
  { rewrite Hpx. unfold pasted_opacity. cbn [corner_square].
    replace (in_box (s - r, s - r, s, s) (s - 1 - k) (s - 1 - k)) with true
      by (symmetry; apply in_box_true; lia).
    unfold quadrant_painted, disc_origin. rewrite Hsym.
    replace (r * 2 - (s - 1 - k - (s - r * 2))) with (k + 1) by lia.
    rewrite Hhi. done. }
  assert (Hin : ∀ x y, 0 ≤ x < s → 0 ≤ y < s → inside (s, s) x y = true)
    by (intros; apply inside_true; lia).
  destruct (rotate_size alpha s Hsize) as (Hs90 & Hs180 & Hs270).
  exists alpha. split; [done|]. repeat split.
  - intros [_ Heq]. rewrite Hs90 in Heq.
    pose proof (Heq k k) as H1. pose proof (Heq (s - 1 - k) k) as H2.
    rewrite (rotate90_px _ s) in H1, H2 by done.
    rewrite <- H1, <- H2, HQ in HP by (apply Hin; lia). lia.
  - intros [_ Heq]. rewrite Hs180 in Heq.
    pose proof (Heq k k) as H1.
    rewrite (rotate180_px _ s) in H1 by done.
    rewrite <- H1, HQ in HP by (apply Hin; lia). lia.
  - intros [_ Heq]. rewrite Hs270 in Heq.
    pose proof (Heq k k) as H1. pose proof (Heq k (s - 1 - k)) as H2.
    rewrite (rotate270_px _ s) in H1, H2 by done.
    rewrite <- H1, <- H2, HQ in HP by (apply Hin; lia). lia.
Qed.

(** C3.  The opacity band does not keep the contract of the inscribed
    quarter-circles.  The bottom right square holds the stamp pixels
    [(r + u, r + v)], and the circle [ImageDraw.ellipse] draws for the box
    [(0, 0, 2r, 2r)] has its centre on the pixel [(r, r)] and spans [2r + 1]
    pixels: it reaches one pixel further into that quadrant than a circle of
    radius [r] about the inner vertex of the square.  Whenever the
    rasteriser paints such a stamp pixel whose offset [(u, v)] is farther
    than [r] from the centre, the band is opaque at a pixel that lies wholly
    outside the quarter-circle inscribed in the bottom right corner. *)
Theorem round_corners_alpha_opaque_outside_arc w h r u v :
  0 < r ≤ Z.min w h `div` 2 → r * r ≤ MAX_CROP_PIXELS →
  0 ≤ u < r → 0 ≤ v < r → r ^ 2 < u ^ 2 + v ^ 2 →
  ellipse_covers (r * 2) (r * 2) (r + u) (r + v) = true →
  ∃ alpha, round_corners_alpha (w, h) r = Returned alpha ∧
    inside (w, h) (w - r + u) (h - r + v) = true ∧
    in_box (corner_square w h r BottomRight) (w - r + u) (h - r + v) = true ∧
    wholly_outside w h r BottomRight (w - r + u) (h - r + v) = true ∧
    b_px alpha (w - r + u) (h - r + v) = 255 ∧
    ¬ arc_contract alpha w h r.
Proof.
  intros [Hr Hhalf] _ Hu Hv Hfar Hpaint.
  apply half_min_bound in Hhalf as [Hw Hh].
  destruct (round_corners_alpha_px w h r) as (alpha & Hret & _ & Hpx);
    [lia..|].
  assert (Hin : inside (w, h) (w - r + u) (h - r + v) = true)
    by (apply inside_true; lia).
  assert (Hsq : in_box (corner_square w h r BottomRight)
                       (w - r + u) (h - r + v) = true)
    by (apply in_box_true; lia).
  assert (Hout : wholly_outside w h r BottomRight (w - r + u) (h - r + v)
                 = true).
  { unfold wholly_outside, near_side. cbn [arc_centre].
    destruct (Z.ltb_spec (w - r) (w - r + u));
      destruct (Z.ltb_spec (h - r) (h - r + v)).
    - apply Z.ltb_lt. replace (w - r + u - (w - r)) with u by lia.
      replace (h - r + v - (h - r)) with v by lia. done.
    - assert (v = 0) as -> by lia.
      destruct (Z.ltb_spec (h - r + 0 + 1) (h - r)); [lia|].
      apply Z.ltb_lt. replace (w - r + u - (w - r)) with u by lia. lia.
    - assert (u = 0) as -> by lia.
      destruct (Z.ltb_spec (w - r + 0 + 1) (w - r)); [lia|].
      apply Z.ltb_lt. replace (h - r + v - (h - r)) with v by lia. lia.
    - assert (u = 0) as -> by lia. assert (v = 0) as -> by lia. nia. }
  assert (Hval : b_px alpha (w - r + u) (h - r + v) = 255).
  { rewrite Hpx. unfold pasted_opacity. rewrite Hsq.
    unfold quadrant_painted, disc_origin.
    replace (w - r + u - (w - r * 2)) with (r + u) by lia.
    replace (h - r + v - (h - r * 2)) with (r + v) by lia.
    rewrite Hpaint. done. }
  exists alpha. repeat (split; [done|]).
  intros Hcontract.
  destruct (Hcontract _ _ Hin) as [Hcorner _].
  destruct (Hcorner BottomRight Hsq) as [_ Hzero].
  rewrite (Hzero Hout) in Hval. discriminate.
Qed.

(** [round_corners] returns the image with the opacity band as its alpha. *)
Lemma round_corners_putalpha img w h r :
  im_size img = (w, h) → 0 ≤ w → 0 ≤ h → 0 ≤ r →
  ∃ alpha, round_corners_alpha (w, h) r = Returned alpha ∧
    (∀ x y, b_px alpha x y = pasted_opacity w h r x y) ∧
    round_corners img r = Returned (putalpha img alpha).
Proof.
  intros Hsize Hw Hh Hr.
  destruct (round_corners_alpha_px w h r) as (alpha & Hret & _ & Hpx); [lia..|].
  exists alpha. split; [done|]. split; [done|].
  unfold round_corners. rewrite Hsize, Hret. done.
Qed.

(** C4, as the code has it.  [round_corners] has no guard of its own: on an
    image smaller than [2r] in either dimension, with quadrants of [r] by
    [r] pixels that Pillow agrees to crop, it returns normally, with an
    image of the same size whose alpha is the band of the overlapping
    quadrants, each pixel taking the opacity of the last pasted quadrant
    that holds it. *)
Theorem round_corners_unguarded img w h r :
  im_size img = (w, h) → 0 ≤ w → 0 ≤ h → 0 ≤ r →
  r * r ≤ MAX_CROP_PIXELS →
  w < 2 * r ∨ h < 2 * r →
  ∃ rounded, round_corners img r = Returned rounded ∧
    im_size rounded = (w, h) ∧
    ∀ x y, px_a (im_px rounded x y) = pasted_opacity w h r x y.
Proof.
  intros Hsize Hw Hh Hr _ _.
  destruct (round_corners_putalpha img w h r) as (alpha & _ & Hpx & Hret);
    [done..|].
  exists (putalpha img alpha). split; [done|]. split; [exact Hsize|].
  intros x y. cbn. apply Hpx.
Qed.

(** C1, as the code has it.  In [create_splash_screen] the mask of radius
    120 replaces the alpha band of the resized logo: after [round_corners]
    the alpha of every pixel is the value of the opacity band there,
    whatever the alpha before, and the colour bands are unchanged. *)
Theorem round_corners_replaces_alpha (logo : image) :
  let resized := resize (convert_RGBA logo) (LOGO_SIZE, LOGO_SIZE) in
  ∃ alpha rounded,
    round_corners_alpha (LOGO_SIZE, LOGO_SIZE) LOGO_RADIUS = Returned alpha ∧
    round_corners resized LOGO_RADIUS = Returned rounded ∧
    ∀ x y, px_a (im_px rounded x y) = b_px alpha x y ∧
           rgb (im_px rounded x y) = rgb (im_px resized x y).
Proof.
  intros resized.
  destruct (round_corners_putalpha resized LOGO_SIZE LOGO_SIZE LOGO_RADIUS)
    as (alpha & Hret & _ & Hrc); [done..|].
  exists alpha, (putalpha resized alpha). done.
Qed.

(** ** Running the script *)

Lemma bind_run {A B} (m : Py A) (k : A → Py B) (w : world) :
  (m ≫= k) w = match m w with
               | (Returned a, w') => k a w'
               | (Raised e, w') => (Raised e, w')
               end.
Proof. reflexivity. Qed.

Lemma BLEND_full out v : 0 ≤ v < 256 → BLEND 255 out v = v.
Proof.
  intros Hv. unfold BLEND, DIV255. rewrite !Z.shiftr_div_pow2 by lia.
  replace (out * (255 - 255) + v * 255) with (v * 255) by lia.
  change (2 ^ 8) with 256. Z.div_mod_to_equations. lia.
Qed.

Lemma Image_new_canvas m bg_color r g b :
  getrgb bg_color = Returned (r, g, b) →
  Image_new m (SPLASH_WIDTH, SPLASH_HEIGHT) bg_color
  = Returned (Image m (SPLASH_WIDTH, SPLASH_HEIGHT) (λ _ _, Pixel r g b 255)).
Proof. intros Hbg. unfold Image_new. cbn. rewrite Hbg. done. Qed.

(** One call of [create_splash_screen] with a decodable logo: it returns,
    and the file it writes is the same image [final] for every path and
    every world that holds that logo; [final] is an ['RGB'] image of the
    canvas size that shows the background outside the logo's box. *)
Lemma create_splash_screen_spec (im : image) (bg_color : string) (r g b : Z) :
  getrgb bg_color = Returned (r, g, b) →
  0 ≤ r < 256 → 0 ≤ g < 256 → 0 ≤ b < 256 →
  ∃ final,
    im_mode final = RGB ∧
    im_size final = (SPLASH_WIDTH, SPLASH_HEIGHT) ∧
    (∀ x y, in_box logo_box x y = false → rgb (im_px final x y) = (r, g, b)) ∧
    (∀ logo_path output_path w,
       fs w !! logo_path = Some (ImageFile im) →
       create_splash_screen logo_path output_path bg_color w
       = (Returned tt,
          World (<[output_path := ImageFile final]> (fs w))
                (stdout w ++ ["✓ Created: " +:+ output_path]))).
Proof.
  intros Hbg Hr Hg Hb.
  set (resized := resize (convert_RGBA im) (LOGO_SIZE, LOGO_SIZE)).
  destruct (round_corners_putalpha resized LOGO_SIZE LOGO_SIZE LOGO_RADIUS)
    as (alpha & _ & _ & Hrc); [done..|].
  set (rounded := putalpha resized alpha) in Hrc.
  set (bg := Pixel r g b 255).
  set (splash :=
         paste_masked (Image RGBA (SPLASH_WIDTH, SPLASH_HEIGHT) (λ _ _, bg))
                      rounded (logo_x, logo_y) rounded).
  exists (png_data
            (paste_masked (Image RGB (SPLASH_WIDTH, SPLASH_HEIGHT) (λ _ _, bg))
                          splash (0, 0) splash)).
  split; [done|]. split; [done|]. split.
  - intros x y Hout.
    assert (Hsplash : im_px splash (x - 0) (y - 0) = bg).
    { rewrite !Z.sub_0_r. unfold splash. cbn [paste_masked im_px].
      change (in_box _ x y) with (in_box logo_box x y). rewrite Hout. done. }
    cbn [png_data paste_masked im_mode im_px im_size]. unfold rgb.
    rewrite Hsplash. cbn [px_r px_g px_b].
    destruct (in_box (0, 0, _, _) x y); [|reflexivity].
    unfold bg. cbn [blend_pixel px_r px_g px_b px_a].
    rewrite !BLEND_full by lia. done.
  - intros p o w Hfs. unfold create_splash_screen. fold resized.
    rewrite bind_run. unfold lift at 1.
    rewrite (Image_new_canvas _ _ r g b Hbg). cbv beta iota.
    rewrite bind_run. unfold Image_open. rewrite Hfs. cbv beta iota.
    rewrite bind_run. unfold lift at 1. fold resized. rewrite Hrc.
    cbv beta iota.
    rewrite bind_run. unfold lift at 1.
    rewrite (Image_new_canvas _ _ r g b Hbg). cbv beta iota.
    rewrite bind_run. unfold save, print. cbv beta iota. cbn [fs stdout].
    reflexivity.
Qed.

Lemma output_paths :
  os_path_join OUTPUT_DIR "splash-dark.png" = "assets/splash-dark.png" ∧
  os_path_join OUTPUT_DIR "splash-light.png" = "assets/splash-light.png".
Proof. done. Qed.

(** A run of [main] with a decodable logo: both variants are written, and
    the two images depend on the logo alone. *)
Lemma main_spec (im : image) :
  ∃ dark light,
    (im_mode dark = RGB ∧ im_size dark = (SPLASH_WIDTH, SPLASH_HEIGHT) ∧
     ∀ x y, in_box logo_box x y = false → rgb (im_px dark x y) = (0, 0, 0)) ∧
    (im_mode light = RGB ∧ im_size light = (SPLASH_WIDTH, SPLASH_HEIGHT) ∧
     ∀ x y, in_box logo_box x y = false →
            rgb (im_px light x y) = (242, 242, 247)) ∧
    ∀ w, fs w !! LOGO_PATH = Some (ImageFile im) →
      main w
      = (Returned tt,
         World (<["assets/splash-light.png" := ImageFile light]>
                  (<["assets/splash-dark.png" := ImageFile dark]> (fs w)))
               (stdout w ++
                  ["Generating splash screens...";
                   "Logo: assets/AI_Companion_icon.png";
                   "Output directory: assets";
                   "";
                   "✓ Created: assets/splash-dark.png";
                   "✓ Created: assets/splash-light.png";
                   "";
                   "✅ All splash screens generated successfully!";
                   "";
                   "Next steps:";
                   "1. Run: npx expo prebuild --clean";
                   "2. Run: npx expo run:ios --device"])).
Proof.
  destruct (create_splash_screen_spec im DARK_BG 0 0 0)
    as (dark & Hdm & Hds & Hdp & Hdark); [done|lia..|].
  destruct (create_splash_screen_spec im LIGHT_BG 242 242 247)
    as (light & Hlm & Hls & Hlp & Hlight); [done|lia..|].
  exists dark, light. split; [done|]. split; [done|].
  intros w Hfs. unfold main.
  rewrite bind_run. unfold os_path_exists. rewrite Hfs.
  rewrite bool_decide_eq_true_2 by done. cbv beta iota. cbn [negb].
  destruct output_paths as [-> ->].
  repeat (rewrite bind_run; unfold os_makedirs, print; cbv beta iota;
          cbn [mret Py_ret fs stdout]).
  rewrite Hdark by done. cbv beta iota.
  rewrite bind_run.
  rewrite Hlight by (cbn [fs]; rewrite lookup_insert_ne; done).
  cbv beta iota. cbn [fs stdout].
  repeat (rewrite bind_run; unfold print; cbv beta iota; cbn [fs stdout]).
  rewrite <- !app_assoc. reflexivity.
Qed.

(** C2.  For every decodable logo, whatever its dimensions, a run of the
    generator returns and writes exactly two files, [splash-dark.png] and
    [splash-light.png] under [assets/], each an ['RGB'] image of 1284 by
    2778 pixels; no other file changes. *)
Theorem main_writes_two_splashes (w : world) (im : image) :
  fs w !! LOGO_PATH = Some (ImageFile im) →
  ∃ dark light out,
    main w
    = (Returned tt,
       World (<["assets/splash-light.png" := ImageFile light]>
                (<["assets/splash-dark.png" := ImageFile dark]> (fs w))) out) ∧
    (im_mode dark = RGB ∧ im_size dark = (1284, 2778)) ∧
    (im_mode light = RGB ∧ im_size light = (1284, 2778)).
Proof.
  intros Hfs.
  destruct (main_spec im)
    as (dark & light & (Hdm & Hds & _) & (Hlm & Hls & _) & Hrun).
  exists dark, light. eexists. split; [apply Hrun, Hfs|]. done.
Qed.

(** C6.  Without the logo file, [main] prints the diagnostic and returns:
    nothing is raised, no file is written and no image is processed. *)
Theorem main_missing_logo (w : world) :
  fs w !! LOGO_PATH = None →
  main w
  = (Returned tt,
     World (fs w)
           (stdout w ++ ["Error: Logo not found at assets/AI_Companion_icon.png"])).
Proof.
  intros Hfs. unfold main. rewrite bind_run. unfold os_path_exists.
  rewrite Hfs. rewrite bool_decide_eq_false_2 by (intros [? ?]; done).
  reflexivity.
Qed.

(** C8.  In both generated images every pixel outside the 480 by 480 box of
    the pasted logo has the configured background colour: [#000000] in
    [splash-dark.png] and [#F2F2F7] in [splash-light.png]. *)
Theorem background_outside_logo (w : world) (im : image) :
  fs w !! LOGO_PATH = Some (ImageFile im) →
  ∃ dark light,
    fs (main w).2 !! "assets/splash-dark.png" = Some (ImageFile dark) ∧
    fs (main w).2 !! "assets/splash-light.png" = Some (ImageFile light) ∧
    ∀ x y, inside (SPLASH_WIDTH, SPLASH_HEIGHT) x y = true →
           in_box logo_box x y = false →
           getrgb DARK_BG = Returned (rgb (im_px dark x y)) ∧
           getrgb LIGHT_BG = Returned (rgb (im_px light x y)).
Proof.
  intros Hfs.
  destruct (main_spec im)
    as (dark & light & (_ & _ & Hdp) & (_ & _ & Hlp) & Hrun).
  exists dark, light. rewrite (Hrun w Hfs). cbn [snd fs].
  split; [by rewrite lookup_insert_ne, lookup_insert_eq|].
  split; [by rewrite lookup_insert_eq|].
  intros x y _ Hout. rewrite (Hdp x y Hout), (Hlp x y Hout). done.
Qed.

(** C9.  The generator is deterministic in the logo: two runs on worlds that
    hold the same logo return alike and leave the same two images, whatever
    else the worlds hold; in particular a second run after a first one
    rewrites both files with the images they already hold. *)
Theorem main_deterministic (w1 w2 : world) (im : image) :
  fs w1 !! LOGO_PATH = Some (ImageFile im) →
  fs w2 !! LOGO_PATH = Some (ImageFile im) →
  (main w1).1 = (main w2).1 ∧
  ∀ out, out = "assets/splash-dark.png" ∨ out = "assets/splash-light.png" →
    is_Some (fs (main w1).2 !! out) ∧
    fs (main w1).2 !! out = fs (main w2).2 !! out ∧
    fs (main (main w1).2).2 !! out = fs (main w1).2 !! out.
Proof.
  intros Hfs1 Hfs2.
  destruct (main_spec im) as (dark & light & _ & _ & Hrun).
  rewrite (Hrun w1 Hfs1), (Hrun w2 Hfs2). cbn [fst snd].
  split; [done|]. intros out Hout.
  rewrite Hrun by (cbn [fs]; rewrite !lookup_insert_ne; done).
  cbn [snd fs].
  destruct Hout as [-> | ->].
  - rewrite !(lookup_insert_ne _ "assets/splash-light.png") by done.
    rewrite !lookup_insert_eq. eauto.
  - rewrite !lookup_insert_eq. eauto.
Qed.

(** ** Further properties of [round_corners] *)

(** A negative radius is rejected: the stamp cannot be allocated, and
    [round_corners] raises [ValueError] whatever the image. *)
Theorem round_corners_negative_radius (img : image) r :
  r < 0 → round_corners img r = Raised ValueError.
Proof.
  intros Hr. unfold round_corners, round_corners_alpha, Image_new_L.
  cbn [fst snd]. destruct (Z.ltb_spec (r * 2) 0); [done|lia].
Qed.

(** Radius 0 rounds nothing: the four squares are empty, so the image comes
    back with its colours and every pixel fully opaque. *)
Theorem round_corners_zero_radius (img : image) w h :
  im_size img = (w, h) → 0 ≤ w → 0 ≤ h →
  ∃ rounded, round_corners img 0 = Returned rounded ∧
    im_size rounded = (w, h) ∧
    ∀ x y, px_a (im_px rounded x y) = 255 ∧
           rgb (im_px rounded x y) = rgb (im_px img x y).
Proof.
  intros Hsize Hw Hh.
  destruct (round_corners_putalpha img w h 0) as (alpha & _ & Hpx & Hret);
    [done..|].
  exists (putalpha img alpha). split; [done|]. split; [exact Hsize|].
  intros x y. split; [|done]. cbn. rewrite Hpx.
  unfold pasted_opacity. cbn [corner_square].
  replace (in_box (w - 0, h - 0, w, h) x y) with false
    by (symmetry; apply in_box_false; lia).
  replace (in_box (0, h - 0, 0, h) x y) with false
    by (symmetry; apply in_box_false; lia).
  replace (in_box (w - 0, 0, w, 0) x y) with false
    by (symmetry; apply in_box_false; lia).
  replace (in_box (0, 0, 0, 0) x y) with false
    by (symmetry; apply in_box_false; lia).
  done.
Qed.

(** The largest supported radius: on a square image of side [2r] the four
    quadrants tile the image and reassemble the stamp, so the band is the
    drawn disc itself. *)
Theorem round_corners_alpha_full_disc r :
  0 ≤ r →
  ∃ alpha, round_corners_alpha (r * 2, r * 2) r = Returned alpha ∧
    ∀ x y, inside (r * 2, r * 2) x y = true →
      b_px alpha x y = opacity (ellipse_covers (r * 2) (r * 2) x y).
Proof.
  intros Hr.
  destruct (round_corners_alpha_px (r * 2) (r * 2) r)
    as (alpha & Hret & _ & Hpx); [lia..|].
  exists alpha. split; [done|]. intros x y Hin.
  apply inside_true in Hin. rewrite Hpx.
  unfold pasted_opacity, quadrant_painted, disc_origin. cbn [corner_square].
  rewrite !Z.sub_diag, !Z.sub_0_r.
  destruct (in_box (r * 2 - r, r * 2 - r, r * 2, r * 2) x y) eqn:Ebr; [done|].
  destruct (in_box (0, r * 2 - r, r, r * 2) x y) eqn:Ebl; [done|].
  destruct (in_box (r * 2 - r, 0, r * 2, r) x y) eqn:Etr; [done|].
  destruct (in_box (0, 0, r, r) x y) eqn:Etl; [done|].
  apply in_box_false in Ebr, Ebl, Etr, Etl. lia.
Qed.

(** Rounding twice is rounding once: the second call overwrites the alpha
    band with the same band. *)
Theorem round_corners_idempotent (img : image) w h r :
  im_size img = (w, h) → 0 ≤ w → 0 ≤ h → 0 ≤ r →
  ∃ once twice,
    round_corners img r = Returned once ∧
    round_corners once r = Returned twice ∧
    im_mode twice = im_mode once ∧ im_size twice = im_size once ∧
    ∀ x y, im_px twice x y = im_px once x y.
Proof.
  intros Hsize Hw Hh Hr.
  destruct (round_corners_putalpha img w h r) as (alpha & Ha & _ & Hret);
    [done..|].
  destruct (round_corners_putalpha (putalpha img alpha) w h r)
    as (alpha' & Ha' & _ & Hret'); [done..|].
  assert (alpha' = alpha) as -> by congruence.
  exists (putalpha img alpha), (putalpha (putalpha img alpha) alpha).
  done.
Qed.

(** ** Further properties of [create_splash_screen] and [main] *)

Lemma BLEND_none out v : 0 ≤ out < 256 → BLEND 0 out v = out.
Proof.
  intros Hout. unfold BLEND, DIV255. rewrite !Z.shiftr_div_pow2 by lia.
  replace (out * (255 - 0) + v * 0) with (out * 255) by lia.
  change (2 ^ 8) with 256. Z.div_mod_to_equations. lia.
Qed.

Lemma logo_box_in_canvas x y :
  in_box logo_box x y = true →
  in_box (0, 0, 0 + SPLASH_WIDTH, 0 + SPLASH_HEIGHT) x y = true.
Proof.
  intros Hin. apply in_box_true in Hin. apply in_box_true.
  unfold logo_x, logo_y, LOGO_SIZE, SPLASH_WIDTH, SPLASH_HEIGHT in *.
  change ((1284 - 480) `div` 2) with 402 in Hin.
  change ((2778 - 480) `div` 2) with 1149 in Hin. lia.
Qed.

Lemma create_splash_screen_open_fails
    (logo_path output_path bg_color : string) (c : Z * Z * Z) (w : world) :
  getrgb bg_color = Returned c →
  create_splash_screen logo_path output_path bg_color w
  = match fs w !! logo_path with
    | None => (Raised FileNotFoundError, w)
    | Some OtherFile => (Raised UnidentifiedImageError, w)
    | Some TruncatedFile => (Raised OSError, w)
    | Some (ImageFile _) =>
        create_splash_screen logo_path output_path bg_color w
    end.
Proof.
  intros Hbg. destruct c as [[r g] b].
  destruct (fs w !! logo_path) as [[im| |]|] eqn:Hfs; [done|..];
    unfold create_splash_screen;
    rewrite bind_run; unfold lift at 1;
    rewrite (Image_new_canvas _ _ r g b Hbg); cbv beta iota;
    rewrite bind_run; unfold Image_open; rewrite Hfs; reflexivity.
Qed.

(** Called on a path that holds no decodable image, [create_splash_screen]
    raises ([FileNotFoundError] for a missing file, [UnidentifiedImageError]
    for one that is not an image) and leaves files and console as they
    were. *)
Theorem create_splash_screen_logo_unreadable
    (logo_path output_path bg_color : string) (c : Z * Z * Z) (w : world) :
  getrgb bg_color = Returned c →
  (fs w !! logo_path = None →
   create_splash_screen logo_path output_path bg_color w
   = (Raised FileNotFoundError, w)) ∧
  (fs w !! logo_path = Some OtherFile →
   create_splash_screen logo_path output_path bg_color w
   = (Raised UnidentifiedImageError, w)).
Proof.
  intros Hbg.
  split; intros Hfs;
    rewrite (create_splash_screen_open_fails _ _ _ c w Hbg), Hfs; done.
Qed.

(** What the saved image shows inside the logo's box.  Where the opacity
    band is 0 the background shows; where it is 255 the pixel is the colour
    of the resized logo at that place, whatever alpha the logo had there
    (the logo's bytes are taken in their range 0..255). *)
Theorem create_splash_screen_pixels
    (im : image) (logo_path output_path bg_color : string) (r g b : Z)
    (w : world) :
  getrgb bg_color = Returned (r, g, b) →
  0 ≤ r < 256 → 0 ≤ g < 256 → 0 ≤ b < 256 →
  fs w !! logo_path = Some (ImageFile im) →
  ∃ alpha final,
    round_corners_alpha (LOGO_SIZE, LOGO_SIZE) LOGO_RADIUS = Returned alpha ∧
    create_splash_screen logo_path output_path bg_color w
    = (Returned tt,
       World (<[output_path := ImageFile final]> (fs w))
             (stdout w ++ ["✓ Created: " +:+ output_path])) ∧
    ∀ x y, in_box logo_box x y = true →
      let q := im_px (resize (convert_RGBA im) (LOGO_SIZE, LOGO_SIZE))
                     (x - logo_x) (y - logo_y) in
      (b_px alpha (x - logo_x) (y - logo_y) = 0 →
       rgb (im_px final x y) = (r, g, b)) ∧
      (b_px alpha (x - logo_x) (y - logo_y) = 255 →
       0 ≤ px_r q < 256 → 0 ≤ px_g q < 256 → 0 ≤ px_b q < 256 →
       rgb (im_px final x y) = rgb q).
Proof.
  intros Hbg Hr Hg Hb Hfs.
  set (resized := resize (convert_RGBA im) (LOGO_SIZE, LOGO_SIZE)).
  destruct (round_corners_putalpha resized LOGO_SIZE LOGO_SIZE LOGO_RADIUS)
    as (alpha & Ha & _ & Hrc); [done..|].
  set (rounded := putalpha resized alpha) in Hrc.
  set (bg := Pixel r g b 255).
  set (splash :=
         paste_masked (Image RGBA (SPLASH_WIDTH, SPLASH_HEIGHT) (λ _ _, bg))
                      rounded (logo_x, logo_y) rounded).
  exists alpha,
    (png_data
       (paste_masked (Image RGB (SPLASH_WIDTH, SPLASH_HEIGHT) (λ _ _, bg))
                     splash (0, 0) splash)).
  split; [done|]. split.
  - unfold create_splash_screen. fold resized.
    rewrite bind_run. unfold lift at 1.
    rewrite (Image_new_canvas _ _ r g b Hbg). cbv beta iota.
    rewrite bind_run. unfold Image_open. rewrite Hfs. cbv beta iota.
    rewrite bind_run. unfold lift at 1. fold resized. rewrite Hrc.
    cbv beta iota.
    rewrite bind_run. unfold lift at 1.
    rewrite (Image_new_canvas _ _ r g b Hbg). cbv beta iota.
    rewrite bind_run. unfold save, print. cbv beta iota. cbn [fs stdout].
    reflexivity.
  - intros x y Hin q.
    pose proof (logo_box_in_canvas x y Hin) as Hcanvas.
    assert (Hsplash : im_px splash (x - 0) (y - 0)
                      = blend_pixel (b_px alpha (x - logo_x) (y - logo_y)) bg
                          (Pixel (px_r q) (px_g q) (px_b q)
                                 (b_px alpha (x - logo_x) (y - logo_y)))).
    { rewrite !Z.sub_0_r. unfold splash. cbn [paste_masked im_px].
      change (in_box _ x y) with (in_box logo_box x y). rewrite Hin. done. }
    assert (Hfinal : rgb (im_px (png_data
                (paste_masked (Image RGB (SPLASH_WIDTH, SPLASH_HEIGHT) (λ _ _, bg))
                     splash (0, 0) splash)) x y)
              = rgb (blend_pixel (px_a (im_px splash (x - 0) (y - 0))) bg
                       (im_px splash (x - 0) (y - 0)))).
    { cbn [png_data paste_masked im_mode im_px im_size]. unfold rgb.
      cbn [px_r px_g px_b].
      change (in_box (0, 0, _, _) x y)
        with (in_box (0, 0, 0 + SPLASH_WIDTH, 0 + SPLASH_HEIGHT) x y).
      rewrite Hcanvas. done. }
    rewrite Hfinal, Hsplash. split.
    + intros ->. unfold bg, rgb. cbn [blend_pixel px_r px_g px_b px_a].
      rewrite !BLEND_none by lia. rewrite !BLEND_full by lia. done.
    + intros -> Hqr Hqg Hqb. unfold bg, rgb.
      cbn [blend_pixel px_r px_g px_b px_a].
      rewrite (BLEND_full 255 255) by lia.
      rewrite (BLEND_full r (px_r q)), (BLEND_full g (px_g q)),
        (BLEND_full b (px_b q)) by lia.
      rewrite (BLEND_full r (px_r q)), (BLEND_full g (px_g q)),
        (BLEND_full b (px_b q)) by lia.
      done.
Qed.

Lemma main_stops_at_decoder (w : world) (f : file) (e : exn) :
  fs w !! LOGO_PATH = Some f →
  (f = OtherFile ∧ e = UnidentifiedImageError)
  ∨ (f = TruncatedFile ∧ e = OSError) →
  main w
  = (Raised e,
     World (fs w)
           (stdout w ++
              ["Generating splash screens...";
               "Logo: assets/AI_Companion_icon.png";
               "Output directory: assets";
               ""])).
Proof.
  intros Hfs Hkind. unfold main. rewrite bind_run. unfold os_path_exists.
  rewrite Hfs. rewrite bool_decide_eq_true_2 by done. cbv beta iota.
  cbn [negb].
  repeat (rewrite bind_run; unfold os_makedirs, print; cbv beta iota;
          cbn [mret Py_ret fs stdout]).
  rewrite (create_splash_screen_open_fails _ _ DARK_BG (0, 0, 0)) by done.
  cbn [fs]. rewrite Hfs.
  destruct Hkind as [[-> ->] | [-> ->]]; cbv beta iota;
    rewrite <- !app_assoc; reflexivity.
Qed.

Lemma main_returns_without_logo (w : world) :
  fs w !! LOGO_PATH = None →
  main w
  = (Returned tt,
     World (fs w)
           (stdout w ++ ["Error: Logo not found at " +:+ LOGO_PATH])).
Proof.
  intros Hfs. unfold main. rewrite bind_run. unfold os_path_exists.
  rewrite Hfs. rewrite bool_decide_eq_false_2 by (intros [? ?]; done).
  reflexivity.
Qed.

(** A logo file that exists but does not decode stops [main] at the first
    variant: the four header lines are printed, the decoder's error is
    raised ([UnidentifiedImageError] for a file that is not an image,
    [OSError] for a truncated image) and no file is written. *)
Theorem main_undecodable_logo (w : world) :
  let stopped :=
    World (fs w)
          (stdout w ++
             ["Generating splash screens...";
              "Logo: assets/AI_Companion_icon.png";
              "Output directory: assets";
              ""]) in
  (fs w !! LOGO_PATH = Some OtherFile →
   main w = (Raised UnidentifiedImageError, stopped)) ∧
  (fs w !! LOGO_PATH = Some TruncatedFile →
   main w = (Raised OSError, stopped)).
Proof.
  intros stopped. split; intros Hfs.
  - apply (main_stops_at_decoder w OtherFile); [done|]. left. done.
  - apply (main_stops_at_decoder w TruncatedFile); [done|]. right. done.
Qed.

(** After a successful run the console holds, after what it held before,
    the twelve lines of the script in order: header, one confirmation per
    file, banner and the two advised commands. *)
Theorem main_console_output (w : world) (im : image) :
  fs w !! LOGO_PATH = Some (ImageFile im) →
  stdout (main w).2
  = stdout w ++
      ["Generating splash screens...";
       "Logo: assets/AI_Companion_icon.png";
       "Output directory: assets";
       "";
       "✓ Created: assets/splash-dark.png";
       "✓ Created: assets/splash-light.png";
       "";
       "✅ All splash screens generated successfully!";
       "";
       "Next steps:";
       "1. Run: npx expo prebuild --clean";
       "2. Run: npx expo run:ios --device"].
Proof.
  intros Hfs. destruct (main_spec im) as (dark & light & _ & _ & Hrun).
  rewrite (Hrun w Hfs). done.
Qed.

(** Whatever the outcome, [main] leaves every file other than the two
    outputs as it was; in particular it never changes or removes the logo. *)
Theorem main_touches_only_outputs (w : world) (path : string) :
  path ≠ "assets/splash-dark.png" → path ≠ "assets/splash-light.png" →
  fs (main w).2 !! path = fs w !! path.
Proof.
  intros Hdark Hlight.
  destruct (fs w !! LOGO_PATH) as [[im| |]|] eqn:Hfs.
  - destruct (main_spec im) as (dark & light & _ & _ & Hrun).
    rewrite (Hrun w Hfs). cbn [snd fs]. by rewrite !lookup_insert_ne.
  - rewrite (main_stops_at_decoder w TruncatedFile OSError Hfs); [done|].
    right. done.
  - rewrite (main_stops_at_decoder w OtherFile UnidentifiedImageError Hfs);
      [done|]. left. done.
  - rewrite (main_returns_without_logo w Hfs). done.
Qed.

(** ** Where the logo is pasted *)

(** C5.  [create_splash_screen] pastes the logo at the position it computes
    by floor division, [x = (1284 - 480) // 2 = 402] and
    [y = (2778 - 480) // 2 = 1149]: in the image it saves, the pixel
    [(u, v)] of the rounded logo shows at [(402 + u, 1149 + v)] and the
    background shows everywhere outside the box of 480 by 480 pixels at
    that position.  The centre of that box is within one pixel of the centre
    of the canvas (the comparison is written on doubled coordinates). *)
Theorem logo_pasted_centred
    (im : image) (logo_path output_path bg_color : string) (r g b : Z)
    (w : world) :
  getrgb bg_color = Returned (r, g, b) →
  0 ≤ r < 256 → 0 ≤ g < 256 → 0 ≤ b < 256 →
  fs w !! logo_path = Some (ImageFile im) →
  (logo_x = (1284 - 480) `div` 2 ∧ logo_x = 402) ∧
  (logo_y = (2778 - 480) `div` 2 ∧ logo_y = 1149) ∧
  (Z.abs ((logo_x + (logo_x + LOGO_SIZE)) - SPLASH_WIDTH) ≤ 2 ∧
   Z.abs ((logo_y + (logo_y + LOGO_SIZE)) - SPLASH_HEIGHT) ≤ 2) ∧
  ∃ alpha final,
    round_corners_alpha (LOGO_SIZE, LOGO_SIZE) LOGO_RADIUS = Returned alpha ∧
    create_splash_screen logo_path output_path bg_color w
    = (Returned tt,
       World (<[output_path := ImageFile final]> (fs w))
             (stdout w ++ ["✓ Created: " +:+ output_path])) ∧
    (∀ x y, in_box (402, 1149, 402 + 480, 1149 + 480) x y = false →
            rgb (im_px final x y) = (r, g, b)) ∧
    (∀ u v, 0 ≤ u < 480 → 0 ≤ v < 480 →
       let q := im_px (resize (convert_RGBA im) (LOGO_SIZE, LOGO_SIZE)) u v in
       b_px alpha u v = 255 →
       0 ≤ px_r q < 256 → 0 ≤ px_g q < 256 → 0 ≤ px_b q < 256 →
       rgb (im_px final (402 + u) (1149 + v)) = rgb q).
Proof.
  intros Hbg Hr Hg Hb Hfs.
  split; [done|]. split; [done|]. split; [by vm_compute|].
  set (resized := resize (convert_RGBA im) (LOGO_SIZE, LOGO_SIZE)).
  destruct (round_corners_putalpha resized LOGO_SIZE LOGO_SIZE LOGO_RADIUS)
    as (alpha & Ha & _ & Hrc); [done..|].
  set (rounded := putalpha resized alpha) in Hrc.
  set (bg := Pixel r g b 255).
  set (canvas := λ m, Image m (SPLASH_WIDTH, SPLASH_HEIGHT) (λ _ _, bg)).
  set (splash := paste_masked (canvas RGBA) rounded (logo_x, logo_y) rounded).
  set (final := png_data (paste_masked (canvas RGB) splash (0, 0) splash)).
  assert (Hflat : ∀ x y,
            rgb (im_px final x y)
            = if in_box (0, 0, 0 + SPLASH_WIDTH, 0 + SPLASH_HEIGHT) x y
              then rgb (blend_pixel (px_a (im_px splash x y)) bg
                                    (im_px splash x y))
              else (r, g, b)).
  { intros x y. unfold final.
    cbn [png_data paste_masked canvas im_mode im_px im_size fst snd].
    unfold rgb. cbn [px_r px_g px_b]. rewrite !Z.sub_0_r.
    destruct (in_box (0, 0, _, _) x y); reflexivity. }
  assert (Hpaste : ∀ x y,
            im_px splash x y
            = if in_box (402, 1149, 402 + 480, 1149 + 480) x y
              then blend_pixel (b_px alpha (x - 402) (y - 1149)) bg
                     (im_px rounded (x - 402) (y - 1149))
              else bg).
  { intros x y. reflexivity. }
  exists alpha, final. split; [done|]. split; [|split].
  - unfold create_splash_screen. fold resized.
    rewrite bind_run. unfold lift at 1.
    rewrite (Image_new_canvas _ _ r g b Hbg). cbv beta iota.
    rewrite bind_run. unfold Image_open. rewrite Hfs. cbv beta iota.
    rewrite bind_run. unfold lift at 1. fold resized. rewrite Hrc.
    cbv beta iota.
    rewrite bind_run. unfold lift at 1.
    rewrite (Image_new_canvas _ _ r g b Hbg). cbv beta iota.
    rewrite bind_run. unfold save, print. cbv beta iota. cbn [fs stdout].
    reflexivity.
  - intros x y Hout. rewrite Hflat, Hpaste, Hout.
    destruct (in_box (0, 0, _, _) x y); [|done].
    unfold bg, rgb. cbn [blend_pixel px_r px_g px_b px_a].
    rewrite !BLEND_full by lia. done.
  - intros u v Hu Hv q Hopaque Hqr Hqg Hqb.
    assert (Hin : in_box (402, 1149, 402 + 480, 1149 + 480)
                         (402 + u) (1149 + v) = true)
      by (apply in_box_true; lia).
    assert (Hcanvas : in_box (0, 0, 0 + SPLASH_WIDTH, 0 + SPLASH_HEIGHT)
                             (402 + u) (1149 + v) = true)
      by (apply in_box_true; unfold SPLASH_WIDTH, SPLASH_HEIGHT; lia).
    rewrite Hflat, Hcanvas, Hpaste, Hin.
    replace (402 + u - 402) with u by lia.
    replace (1149 + v - 1149) with v by lia.
    rewrite Hopaque. unfold rounded, bg, rgb.
    cbn [putalpha im_px blend_pixel px_r px_g px_b px_a]. fold q.
    rewrite Hopaque.
    rewrite (BLEND_full 255 255) by lia.
    rewrite (BLEND_full r (px_r q)), (BLEND_full g (px_g q)),
      (BLEND_full b (px_b q)) by lia.
    rewrite (BLEND_full r (px_r q)), (BLEND_full g (px_g q)),
      (BLEND_full b (px_b q)) by lia.
    done.
Qed.

End Pillow.

(** ** The theorems at concrete inputs *)

Lemma disc_covers_symmetric a b x y :
  disc_covers a b x y = disc_covers a b (a - x) (b - y).
Proof. unfold disc_covers. f_equal. ring. Qed.

(** C1 as stated fails: a logo pixel that is transparent before the
    rounding is fully opaque after it. *)
Lemma transparent_pixel_made_opaque :
  px_a (im_px transparent_logo 240 240) = 0 ∧
  (λ rounded, px_a (im_px rounded 240 240))
    <$> round_corners disc_covers transparent_logo LOGO_RADIUS
  = Returned 255.
Proof. split; reflexivity. Qed.

(** C4 as stated fails: on a 100 by 100 image and radius 120 nothing is
    raised. *)
Lemma small_image_not_rejected :
  im_size small_icon = (100, 100) ∧ 100 < 2 * LOGO_RADIUS ∧
  is_Raised (round_corners disc_covers small_icon LOGO_RADIUS) = false.
Proof. repeat split. Qed.

(** The band of the 480 by 480 logo under the reference rasteriser: the
    pixel (35, 35) is cut away while its image under a half turn,
    (444, 444), is kept. *)
Example logo_band_half_turn :
  (λ alpha, (b_px alpha 35 35, b_px alpha 444 444))
    <$> round_corners_alpha disc_covers (LOGO_SIZE, LOGO_SIZE) LOGO_RADIUS
  = Returned (0, 255).
Proof. reflexivity. Qed.

Lemma round_corners_alpha_quadrants_witness :
  0 < 120 ≤ Z.min 480 480 `div` 2 ∧ 120 * 120 ≤ MAX_CROP_PIXELS ∧
  ∃ alpha, round_corners_alpha disc_covers (480, 480) 120 = Returned alpha ∧
    b_size alpha = (480, 480) ∧
    ∀ x y, inside (480, 480) x y = true →
      (∀ c, in_box (corner_square 480 480 120 c) x y = true →
            b_px alpha x y
            = opacity (quadrant_painted disc_covers 480 480 120 c x y)) ∧
      ((∀ c, in_box (corner_square 480 480 120 c) x y = false) →
       b_px alpha x y = 255).
Proof.
  assert (H : 0 < 120 ≤ Z.min 480 480 `div` 2) by (vm_compute; split; congruence).
  assert (Hcrop : 120 * 120 ≤ MAX_CROP_PIXELS) by (vm_compute; congruence).
  split; [exact H|]. split; [exact Hcrop|].
  exact (round_corners_alpha_quadrants disc_covers 480 480 120 H Hcrop).
Defined.

Lemma round_corners_alpha_opaque_outside_arc_witness :
  0 < 120 ≤ Z.min 480 480 `div` 2 ∧ 120 * 120 ≤ MAX_CROP_PIXELS ∧
  0 ≤ 85 < 120 ∧ 120 ^ 2 < 85 ^ 2 + 85 ^ 2 ∧
  centre_disc_covers (120 * 2) (120 * 2) (120 + 85) (120 + 85) = true ∧
  ∃ alpha,
    round_corners_alpha centre_disc_covers (480, 480) 120 = Returned alpha ∧
    inside (480, 480) (480 - 120 + 85) (480 - 120 + 85) = true ∧
    in_box (corner_square 480 480 120 BottomRight)
           (480 - 120 + 85) (480 - 120 + 85) = true ∧
    wholly_outside 480 480 120 BottomRight (480 - 120 + 85) (480 - 120 + 85)
    = true ∧
    b_px alpha (480 - 120 + 85) (480 - 120 + 85) = 255 ∧
    ¬ arc_contract alpha 480 480 120.
Proof.
  assert (H : 0 < 120 ≤ Z.min 480 480 `div` 2) by (vm_compute; split; congruence).
  assert (Hcrop : 120 * 120 ≤ MAX_CROP_PIXELS) by (vm_compute; congruence).
  assert (Hu : 0 ≤ 85 < 120) by (vm_compute; split; congruence).
  assert (Hfar : 120 ^ 2 < 85 ^ 2 + 85 ^ 2) by reflexivity.
  assert (Hpaint : centre_disc_covers (120 * 2) (120 * 2) (120 + 85) (120 + 85)
                   = true) by reflexivity.
  repeat (split; [assumption|]).
  exact (round_corners_alpha_opaque_outside_arc centre_disc_covers
           480 480 120 85 85 H Hcrop Hu Hu Hfar Hpaint).
Defined.

Lemma round_corners_alpha_two_valued_witness :
  0 < 120 ≤ Z.min 480 480 `div` 2 ∧
  ∃ alpha, round_corners_alpha disc_covers (480, 480) 120 = Returned alpha ∧
    ∀ x y, inside (480, 480) x y = true →
      b_px alpha x y = 0 ∨ b_px alpha x y = 255.
Proof.
  assert (H : 0 < 120 ≤ Z.min 480 480 `div` 2) by (vm_compute; split; congruence).
  split; [exact H|].
  exact (round_corners_alpha_two_valued disc_covers 480 480 120 H).
Defined.

Lemma round_corners_alpha_not_rotation_invariant_witness :
  0 < 120 ≤ 480 `div` 2 ∧
  (∀ x y, disc_covers (120 * 2) (120 * 2) x y
          = disc_covers (120 * 2) (120 * 2) (120 * 2 - x) (120 * 2 - y)) ∧
  disc_covers (120 * 2) (120 * 2) 120 120 = true ∧
  disc_covers (120 * 2) (120 * 2) 0 0 = false ∧
  ∃ alpha, round_corners_alpha disc_covers (480, 480) 120 = Returned alpha ∧
    ¬ band_eq (rotate90 alpha) alpha ∧
    ¬ band_eq (rotate180 alpha) alpha ∧
    ¬ band_eq (rotate270 alpha) alpha.
Proof.
  assert (H : 0 < 120 ≤ 480 `div` 2) by (vm_compute; split; congruence).
  assert (Hsym : ∀ x y, disc_covers (120 * 2) (120 * 2) x y
                 = disc_covers (120 * 2) (120 * 2) (120 * 2 - x) (120 * 2 - y))
    by (intros x y; apply disc_covers_symmetric).
  assert (Hcentre : disc_covers (120 * 2) (120 * 2) 120 120 = true)
    by reflexivity.
  assert (Hcorner : disc_covers (120 * 2) (120 * 2) 0 0 = false)
    by reflexivity.
  repeat (split; [assumption|]).
  exact (round_corners_alpha_not_rotation_invariant
           disc_covers 480 120 H Hsym Hcentre Hcorner).
Defined.

Lemma round_corners_unguarded_witness :
  im_size small_icon = (100, 100) ∧ 0 ≤ 100 ∧ 0 ≤ 120 ∧
  120 * 120 ≤ MAX_CROP_PIXELS ∧
  (100 < 2 * 120 ∨ 100 < 2 * 120) ∧
  ∃ rounded, round_corners disc_covers small_icon 120 = Returned rounded ∧
    im_size rounded = (100, 100) ∧
    ∀ x y, px_a (im_px rounded x y)
           = pasted_opacity disc_covers 100 100 120 x y.
Proof.
  assert (Hw : 0 ≤ 100) by (vm_compute; congruence).
  assert (Hr : 0 ≤ 120) by (vm_compute; congruence).
  assert (Hcrop : 120 * 120 ≤ MAX_CROP_PIXELS) by (vm_compute; congruence).
  assert (Hsmall : 100 < 2 * 120 ∨ 100 < 2 * 120) by (left; reflexivity).
  repeat (split; [first [reflexivity | assumption]|]).
  exact (round_corners_unguarded disc_covers small_icon 100 100 120
           eq_refl Hw Hw Hr Hcrop Hsmall).
Defined.

Lemma logo_pasted_centred_witness :
  getrgb LIGHT_BG = Returned (242, 242, 247) ∧
  fs sample_world !! LOGO_PATH = Some (ImageFile sample_logo) ∧
  (logo_x = (1284 - 480) `div` 2 ∧ logo_x = 402) ∧
  (logo_y = (2778 - 480) `div` 2 ∧ logo_y = 1149) ∧
  (Z.abs ((logo_x + (logo_x + LOGO_SIZE)) - SPLASH_WIDTH) ≤ 2 ∧
   Z.abs ((logo_y + (logo_y + LOGO_SIZE)) - SPLASH_HEIGHT) ≤ 2) ∧
  ∃ alpha final,
    round_corners_alpha disc_covers (LOGO_SIZE, LOGO_SIZE) LOGO_RADIUS
    = Returned alpha ∧
    create_splash_screen disc_covers nearest LOGO_PATH
      "assets/splash-light.png" LIGHT_BG sample_world
    = (Returned tt,
       World (<["assets/splash-light.png" := ImageFile final]>
                (fs sample_world))
             (stdout sample_world
                ++ ["✓ Created: " +:+ "assets/splash-light.png"])) ∧
    (∀ x y, in_box (402, 1149, 402 + 480, 1149 + 480) x y = false →
            rgb (im_px final x y) = (242, 242, 247)) ∧
    (∀ u v, 0 ≤ u < 480 → 0 ≤ v < 480 →
       let q := im_px (resize nearest (convert_RGBA sample_logo)
                              (LOGO_SIZE, LOGO_SIZE)) u v in
       b_px alpha u v = 255 →
       0 ≤ px_r q < 256 → 0 ≤ px_g q < 256 → 0 ≤ px_b q < 256 →
       rgb (im_px final (402 + u) (1149 + v)) = rgb q).
Proof.
  assert (Hbg : getrgb LIGHT_BG = Returned (242, 242, 247)) by reflexivity.
  assert (Hfs : fs sample_world !! LOGO_PATH = Some (ImageFile sample_logo))
    by reflexivity.
  assert (H242 : 0 ≤ 242 < 256) by (vm_compute; split; congruence).
  assert (H247 : 0 ≤ 247 < 256) by (vm_compute; split; congruence).
  split; [exact Hbg|]. split; [exact Hfs|].
  exact (logo_pasted_centred disc_covers nearest sample_logo LOGO_PATH
           "assets/splash-light.png" LIGHT_BG 242 242 247 sample_world
           Hbg H242 H242 H247 Hfs).
Defined.

Lemma main_writes_two_splashes_witness :
  fs sample_world !! LOGO_PATH = Some (ImageFile sample_logo) ∧
  ∃ dark light out,
    main disc_covers nearest sample_world
    = (Returned tt,
       World (<["assets/splash-light.png" := ImageFile light]>
                (<["assets/splash-dark.png" := ImageFile dark]>
                   (fs sample_world))) out) ∧
    (im_mode dark = RGB ∧ im_size dark = (1284, 2778)) ∧
    (im_mode light = RGB ∧ im_size light = (1284, 2778)).
Proof.
  assert (H : fs sample_world !! LOGO_PATH = Some (ImageFile sample_logo))
    by reflexivity.
  split; [exact H|].
  exact (main_writes_two_splashes disc_covers nearest sample_world sample_logo H).
Defined.

Lemma main_missing_logo_witness :
  fs empty_world !! LOGO_PATH = None ∧
  main disc_covers nearest empty_world
  = (Returned tt,
     World (fs empty_world)
           (stdout empty_world
              ++ ["Error: Logo not found at assets/AI_Companion_icon.png"])).
Proof.
  assert (H : fs empty_world !! LOGO_PATH = None) by reflexivity.
  split; [exact H|].
  exact (main_missing_logo disc_covers nearest empty_world H).
Defined.

Lemma background_outside_logo_witness :
  fs sample_world !! LOGO_PATH = Some (ImageFile sample_logo) ∧
  ∃ dark light,
    fs (main disc_covers nearest sample_world).2 !! "assets/splash-dark.png"
    = Some (ImageFile dark) ∧
    fs (main disc_covers nearest sample_world).2 !! "assets/splash-light.png"
    = Some (ImageFile light) ∧
    ∀ x y, inside (SPLASH_WIDTH, SPLASH_HEIGHT) x y = true →
           in_box logo_box x y = false →
           getrgb DARK_BG = Returned (rgb (im_px dark x y)) ∧
           getrgb LIGHT_BG = Returned (rgb (im_px light x y)).
Proof.
  assert (H : fs sample_world !! LOGO_PATH = Some (ImageFile sample_logo))
    by reflexivity.
  split; [exact H|].
  exact (background_outside_logo disc_covers nearest sample_world sample_logo H).
Defined.

Lemma main_deterministic_witness :
  fs sample_world !! LOGO_PATH = Some (ImageFile sample_logo) ∧
  fs busy_world !! LOGO_PATH = Some (ImageFile sample_logo) ∧
  (main disc_covers nearest sample_world).1
  = (main disc_covers nearest busy_world).1 ∧
  ∀ out, out = "assets/splash-dark.png" ∨ out = "assets/splash-light.png" →
    is_Some (fs (main disc_covers nearest sample_world).2 !! out) ∧
    fs (main disc_covers nearest sample_world).2 !! out
    = fs (main disc_covers nearest busy_world).2 !! out ∧
    fs (main disc_covers nearest
          (main disc_covers nearest sample_world).2).2 !! out
    = fs (main disc_covers nearest sample_world).2 !! out.
Proof.
  assert (H1 : fs sample_world !! LOGO_PATH = Some (ImageFile sample_logo))
    by reflexivity.
  assert (H2 : fs busy_world !! LOGO_PATH = Some (ImageFile sample_logo))
    by reflexivity.
  split; [exact H1|]. split; [exact H2|].
  exact (main_deterministic disc_covers nearest sample_world busy_world
           sample_logo H1 H2).
Defined.

(** ** The further properties at concrete inputs *)

Lemma round_corners_negative_radius_witness :
  -1 < 0 ∧ round_corners disc_covers small_icon (-1) = Raised ValueError.
Proof.
  assert (H : -1 < 0) by reflexivity.
  split; [exact H|].
  exact (round_corners_negative_radius disc_covers small_icon (-1) H).
Defined.

Lemma round_corners_zero_radius_witness :
  im_size transparent_logo = (480, 480) ∧ 0 ≤ 480 ∧
  ∃ rounded, round_corners disc_covers transparent_logo 0 = Returned rounded ∧
    im_size rounded = (480, 480) ∧
    ∀ x y, px_a (im_px rounded x y) = 255 ∧
           rgb (im_px rounded x y) = rgb (im_px transparent_logo x y).
Proof.
  assert (H : 0 ≤ 480) by (vm_compute; congruence).
  split; [reflexivity|]. split; [exact H|].
  exact (round_corners_zero_radius disc_covers transparent_logo 480 480
           eq_refl H H).
Defined.

Lemma round_corners_alpha_full_disc_witness :
  0 ≤ 120 ∧
  ∃ alpha, round_corners_alpha disc_covers (120 * 2, 120 * 2) 120
           = Returned alpha ∧
    ∀ x y, inside (120 * 2, 120 * 2) x y = true →
      b_px alpha x y = opacity (disc_covers (120 * 2) (120 * 2) x y).
Proof.
  assert (H : 0 ≤ 120) by (vm_compute; congruence).
  split; [exact H|].
  exact (round_corners_alpha_full_disc disc_covers 120 H).
Defined.

Lemma round_corners_idempotent_witness :
  im_size transparent_logo = (480, 480) ∧ 0 ≤ 480 ∧ 0 ≤ 120 ∧
  ∃ once twice,
    round_corners disc_covers transparent_logo 120 = Returned once ∧
    round_corners disc_covers once 120 = Returned twice ∧
    im_mode twice = im_mode once ∧ im_size twice = im_size once ∧
    ∀ x y, im_px twice x y = im_px once x y.
Proof.
  assert (Hs : 0 ≤ 480) by (vm_compute; congruence).
  assert (Hr : 0 ≤ 120) by (vm_compute; congruence).
  split; [reflexivity|]. split; [exact Hs|]. split; [exact Hr|].
  exact (round_corners_idempotent disc_covers transparent_logo 480 480 120
           eq_refl Hs Hs Hr).
Defined.

Lemma create_splash_screen_logo_unreadable_witness :
  getrgb DARK_BG = Returned (0, 0, 0) ∧
  create_splash_screen disc_covers nearest LOGO_PATH "assets/out.png" DARK_BG
    empty_world
  = (Raised FileNotFoundError, empty_world) ∧
  create_splash_screen disc_covers nearest LOGO_PATH "assets/out.png" DARK_BG
    broken_world
  = (Raised UnidentifiedImageError, broken_world).
Proof.
  assert (H : getrgb DARK_BG = Returned (0, 0, 0)) by reflexivity.
  split; [exact H|]. split.
  - exact (proj1 (create_splash_screen_logo_unreadable disc_covers nearest
                    LOGO_PATH "assets/out.png" DARK_BG (0, 0, 0) empty_world H)
                 eq_refl).
  - exact (proj2 (create_splash_screen_logo_unreadable disc_covers nearest
                    LOGO_PATH "assets/out.png" DARK_BG (0, 0, 0) broken_world H)
                 eq_refl).
Defined.

Lemma create_splash_screen_pixels_witness :
  getrgb LIGHT_BG = Returned (242, 242, 247) ∧
  fs sample_world !! LOGO_PATH = Some (ImageFile sample_logo) ∧
  ∃ alpha final,
    round_corners_alpha disc_covers (LOGO_SIZE, LOGO_SIZE) LOGO_RADIUS
    = Returned alpha ∧
    create_splash_screen disc_covers nearest LOGO_PATH "assets/out.png"
      LIGHT_BG sample_world
    = (Returned tt,
       World (<["assets/out.png" := ImageFile final]> (fs sample_world))
             (stdout sample_world ++ ["✓ Created: " +:+ "assets/out.png"])) ∧
    ∀ x y, in_box logo_box x y = true →
      let q := im_px (resize nearest (convert_RGBA sample_logo)
                             (LOGO_SIZE, LOGO_SIZE))
                     (x - logo_x) (y - logo_y) in
      (b_px alpha (x - logo_x) (y - logo_y) = 0 →
       rgb (im_px final x y) = (242, 242, 247)) ∧
      (b_px alpha (x - logo_x) (y - logo_y) = 255 →
       0 ≤ px_r q < 256 → 0 ≤ px_g q < 256 → 0 ≤ px_b q < 256 →
       rgb (im_px final x y) = rgb q).
Proof.
  assert (Hbg : getrgb LIGHT_BG = Returned (242, 242, 247)) by reflexivity.
  assert (Hfs : fs sample_world !! LOGO_PATH = Some (ImageFile sample_logo))
    by reflexivity.
  assert (H242 : 0 ≤ 242 < 256) by (vm_compute; split; congruence).
  assert (H247 : 0 ≤ 247 < 256) by (vm_compute; split; congruence).
  split; [exact Hbg|]. split; [exact Hfs|].
  exact (create_splash_screen_pixels disc_covers nearest sample_logo LOGO_PATH
           "assets/out.png" LIGHT_BG 242 242 247 sample_world
           Hbg H242 H242 H247 Hfs).
Defined.

Lemma main_undecodable_logo_witness :
  fs broken_world !! LOGO_PATH = Some OtherFile ∧
  fs truncated_world !! LOGO_PATH = Some TruncatedFile ∧
  main disc_covers nearest broken_world
  = (Raised UnidentifiedImageError,
     World (fs broken_world)
           (stdout broken_world ++
              ["Generating splash screens...";
               "Logo: assets/AI_Companion_icon.png";
               "Output directory: assets";
               ""])) ∧
  main disc_covers nearest truncated_world
  = (Raised OSError,
     World (fs truncated_world)
           (stdout truncated_world ++
              ["Generating splash screens...";
               "Logo: assets/AI_Companion_icon.png";
               "Output directory: assets";
               ""])).
Proof.
  assert (Hb : fs broken_world !! LOGO_PATH = Some OtherFile) by reflexivity.
  assert (Ht : fs truncated_world !! LOGO_PATH = Some TruncatedFile)
    by reflexivity.
  split; [exact Hb|]. split; [exact Ht|]. split.
  - exact (proj1 (main_undecodable_logo disc_covers nearest broken_world) Hb).
  - exact (proj2 (main_undecodable_logo disc_covers nearest truncated_world)
                 Ht).
Defined.

Lemma main_console_output_witness :
  fs busy_world !! LOGO_PATH = Some (ImageFile sample_logo) ∧
  stdout (main disc_covers nearest busy_world).2
  = stdout busy_world ++
      ["Generating splash screens...";
       "Logo: assets/AI_Companion_icon.png";
       "Output directory: assets";
       "";
       "✓ Created: assets/splash-dark.png";
       "✓ Created: assets/splash-light.png";
       "";
       "✅ All splash screens generated successfully!";
       "";
       "Next steps:";
       "1. Run: npx expo prebuild --clean";
       "2. Run: npx expo run:ios --device"].
Proof.
  assert (H : fs busy_world !! LOGO_PATH = Some (ImageFile sample_logo))
    by reflexivity.
  split; [exact H|].
  exact (main_console_output disc_covers nearest busy_world sample_logo H).
Defined.

Lemma main_touches_only_outputs_witness :
  LOGO_PATH ≠ "assets/splash-dark.png" ∧
  LOGO_PATH ≠ "assets/splash-light.png" ∧
  fs (main disc_covers nearest busy_world).2 !! LOGO_PATH
  = fs busy_world !! LOGO_PATH.
Proof.
  assert (Hd : LOGO_PATH ≠ "assets/splash-dark.png") by discriminate.
  assert (Hl : LOGO_PATH ≠ "assets/splash-light.png") by discriminate.
  split; [exact Hd|]. split; [exact Hl|].
  exact (main_touches_only_outputs disc_covers nearest busy_world LOGO_PATH
           Hd Hl).
Defined.
